(** * Resource utilities of Forseti Security

    A shallow embedding of
    [google/cloud/security/common/gcp_type/resource_util.py]: the module-level
    dictionary [_RESOURCE_TYPE_MAP] and the four functions [create_resource],
    [pluralize], [type_from_name] and [load_all], followed by the properties
    of the resource-type registry.

    Python values are modelled as follows.
    - A [str] is a [string] (Python 2 byte strings), [None] in the place of
      a string or of an object is [None] of an [option].
    - Where an argument may be of any type it is a [pyvalue]; the functions
      with the suffix [_value] are the bodies of [create_resource],
      [pluralize] and [type_from_name] on such arguments.
    - A [dict] keyed by strings is a [gmap string _]; a dictionary display
      [{k1: v1, k2: v2}] inserts its items from left to right.
    - A function body is a computation [py A]: it reads the module's state,
      and either returns a value or raises an exception. *)

From Stdlib Require Import String Ascii NArith ZArith Bool.
From stdpp Require Import base option list gmap strings fin_maps.

Local Open Scope string_scope.

(** ** Strings *)

(** [c.lower()] on one byte: the letters [A]..[Z] move to [a]..[z], every
    other byte is kept. *)
Definition lower_char (c : ascii) : ascii :=
  let n := N_of_ascii c in
  if ((65 <=? n) && (n <=? 90))%N then ascii_of_N (n + 32) else c.

(** [s.lower()]. *)
Fixpoint lower (s : string) : string :=
  match s with
  | EmptyString => EmptyString
  | String c s' => String (lower_char c) (lower s')
  end.

(** [s.startswith(prefix)]: byte-wise comparison, no case folding. *)
Fixpoint startswith (s prefix : string) {struct prefix} : bool :=
  match prefix with
  | EmptyString => true
  | String p prefix' =>
      match s with
      | EmptyString => false
      | String c s' => if Ascii.eqb c p then startswith s' prefix' else false
      end
  end.

(** ** Values

    The values a caller can pass where the docstrings ask for a [str]:
    [None], booleans, integers, strings, tuples and lists. *)
#[local] Unset Elimination Schemes.
Inductive pyvalue : Type :=
  | PyNone
  | PyBool (b : bool)
  | PyInt (n : Z)
  | PyStr (s : string)
  | PyTuple (items : list pyvalue)
  | PyList (items : list pyvalue).
#[local] Set Elimination Schemes.

(** [hash(v)] is defined: a list has no hash, and a tuple has one when all
    its items have one. *)
Fixpoint hashable (v : pyvalue) : bool :=
  match v with
  | PyNone | PyBool _ | PyInt _ | PyStr _ => true
  | PyTuple items => forallb hashable items
  | PyList _ => false
  end.

(** [bool(v)], the test made by [not v]. *)
Definition truthy (v : pyvalue) : bool :=
  match v with
  | PyNone => false
  | PyBool b => b
  | PyInt n => negb (n =? 0)%Z
  | PyStr s => negb (String.eqb s "")
  | PyTuple items | PyList items =>
      match items with
      | [] => false
      | _ :: _ => true
      end
  end.

(** ** Exceptions and outcomes *)

Inductive exn : Type :=
  | KeyError (key : pyvalue)
  | AttributeError (attr : string)
  | NameError (name : string)
  | TypeError (msg : string)
  | Exception (msg : string).

Inductive result (A : Type) : Type :=
  | Return (a : A)
  | Raise (e : exn).
Arguments Return {A} a.
Arguments Raise {A} e.

(** ** Module namespace

    The names bound at module level by the imports (lines 17-22), by the
    assignments to [LOGGER] and [_RESOURCE_TYPE_MAP] (lines 25, 27) and by the
    four [def] statements. *)
Definition module_globals : list string :=
  [ "backend_service"; "folder"; "org"; "project"; "resource"; "log_util";
    "LOGGER"; "_RESOURCE_TYPE_MAP";
    "create_resource"; "pluralize"; "type_from_name"; "load_all" ].

(** ** A concrete instance of the imported modules *)

Module Model.

(** Modelled from the spec: the constants of [resource.ResourceType], a
    module that is not part of this file. The spec describes them as an
    enumerated identifier with the members ORGANIZATION, FOLDER, PROJECT and
    BACKEND_SERVICE, used as a map key and comparison value; the docstrings
    of [create_resource] and [pluralize] give them the type [str]. Their
    values are not stated; this instance takes four different strings. *)
Definition ORGANIZATION : string := "organization".
Definition FOLDER : string := "folder".
Definition PROJECT : string := "project".
Definition BACKEND_SERVICE : string := "backend_service".

(** Modelled from the spec: an instance of [resource.Resource], a value
    with an identity and a type classification, built from a resource id
    and extra keyword arguments. *)
Record Resource : Type := {
  id : string;
  type : string;
  extra : gmap string string;
}.

(** Modelled from the spec: the concrete resource constructors, each
    accepting [(resource_id, **extra)] and returning a resource of its own
    type. *)
Definition Organization (resource_id : string) (kwargs : gmap string string) :=
  {| id := resource_id; type := ORGANIZATION; extra := kwargs |}.
Definition Folder (resource_id : string) (kwargs : gmap string string) :=
  {| id := resource_id; type := FOLDER; extra := kwargs |}.
Definition Project (resource_id : string) (kwargs : gmap string string) :=
  {| id := resource_id; type := PROJECT; extra := kwargs |}.
Definition BackendService (resource_id : string) (kwargs : gmap string string) :=
  {| id := resource_id; type := BACKEND_SERVICE; extra := kwargs |}.

End Model.

Section ResourceUtil.

(** Values of keyword arguments, and instances of [resource.Resource]. *)
Context {Value Resource : Type}.

(** The inner dictionaries of [_RESOURCE_TYPE_MAP]: every one of them has
    exactly the keys ['class'], ['plural'] and ['can_create_resource']. *)
Record metadata : Type := Metadata {
  class : string → gmap string Value → Resource;
  plural : string;
  can_create_resource : bool;
}.

(** The state a call can observe: the dictionary object bound to
    [_RESOURCE_TYPE_MAP] and the warnings sent to [LOGGER]. *)
Record module_state : Type := ModuleState {
  registry : gmap string metadata;
  warnings : list string;
}.

Definition py (A : Type) : Type := module_state → module_state * result A.

Definition ret {A} (a : A) : py A := λ σ, (σ, Return a).

Definition raise {A} (e : exn) : py A := λ σ, (σ, Raise e).

Definition bind {A B} (m : py A) (k : A → py B) : py B :=
  λ σ, match m σ with
       | (σ', Return a) => k a σ'
       | (σ', Raise e) => (σ', Raise e)
       end.

Definition lift {A} (r : result A) : py A := λ σ, (σ, r).

Notation "'let!' x ':=' m 'in' k" := (bind m (λ x, k))
  (at level 10, x name, m at level 100, k at level 200,
   format "'let!'  x  ':='  m  'in'  '/' k").

(** Evaluation of a global name inside a function body: the name is looked
    up in the module namespace when the body runs. *)
Definition load_global {A} (name : string) (binding : module_state → A) : py A :=
  λ σ, if bool_decide (name ∈ module_globals)
       then (σ, Return (binding σ))
       else (σ, Raise (NameError name)).

(** [d[key]]. *)
Definition getitem (d : gmap string metadata) (key : string) : py metadata :=
  match d !! key with
  | Some v => ret v
  | None => raise (KeyError (PyStr key))
  end.

(** [LOGGER.warn(msg)]. *)
Definition warn (msg : string) : py unit :=
  λ σ, ({| registry := registry σ; warnings := warnings σ ++ [msg] |}, Return tt).

(** *** The imported names *)

(** [resource.ResourceType.ORGANIZATION] and its siblings: string constants
    of a module that is not part of this file. *)
Variables ORGANIZATION FOLDER PROJECT BACKEND_SERVICE : string.

(** The classes [org.Organization], [folder.Folder], [project.Project] and
    [backend_service.BackendService], called as [cls(resource_id, **kwargs)]. *)
Variables Organization Folder Project BackendService :
  string → gmap string Value → Resource.

(** [d.iteritems()]: every item of the dictionary once, in an order that
    the language leaves open. *)
Variable iteritems : gmap string metadata → list (string * metadata).

(** *** [_RESOURCE_TYPE_MAP] *)

Definition _RESOURCE_TYPE_MAP : gmap string metadata :=
  <[BACKEND_SERVICE := {| class := BackendService;
                          plural := "Backend Services";
                          can_create_resource := false |}]>
 (<[PROJECT := {| class := Project;
                  plural := "Projects";
                  can_create_resource := true |}]>
 (<[FOLDER := {| class := Folder;
                 plural := "Folders";
                 can_create_resource := true |}]>
 (<[ORGANIZATION := {| class := Organization;
                       plural := "Organizations";
                       can_create_resource := true |}]> ∅))).

(** The state after the module has been imported. *)
Definition initial_state : module_state :=
  {| registry := _RESOURCE_TYPE_MAP; warnings := [] |}.

(** The outcome of a call made right after import. *)
Definition eval {A} (m : py A) : result A := (m initial_state).2.

(** *** [create_resource] *)

Definition create_resource (resource_id resource_type : string)
    (kwargs : gmap string Value) : py (option Resource) :=
  let! d := load_global "_RESOURCE_TYPE_MAP" registry in
  if bool_decide (d !! resource_type = None) then ret None else
  let! d := load_global "_RESOURCE_TYPE_MAP" registry in
  let! resource_type := getitem d resource_type in
  if negb (can_create_resource resource_type) then ret None else
  ret (Some (class resource_type resource_id kwargs)).

(** *** [pluralize] *)

Definition pluralize (resource_type : string) : py (option string) :=
  let! d := load_global "_RESOURCE_TYPE_MAP" registry in
  if bool_decide (d !! resource_type = None) then ret None else
  let! d := load_global "_RESOURCE_TYPE_MAP" registry in
  match d !! resource_type with
  | Some entry => ret (Some (plural entry))
  | None => raise (AttributeError "get")
  end.

(** *** [type_from_name] *)

(** The [for] loop of [type_from_name] over the items still to visit. *)
Fixpoint first_match (resource_name : string)
    (items : list (string * metadata)) : option string :=
  match items with
  | [] => None
  | (resource_type, metadata) :: items' =>
      if startswith resource_name (lower (plural metadata))
      then Some resource_type
      else first_match resource_name items'
  end.

(** [resource_name] is a string or [None]; [not resource_name] holds for
    [None] and for the empty string. *)
Definition type_from_name (resource_name : option string) : py (option string) :=
  match resource_name with
  | None => ret None
  | Some EmptyString => ret None
  | Some name =>
      let! d := load_global "_RESOURCE_TYPE_MAP" registry in
      ret (first_match name (iteritems d))
  end.

(** *** [load_all] *)

(** Rows returned by a data access object. *)
Context {Row : Type}.

(** The object returned by [resource.dao()], with its method [get_all]. *)
Record Dao : Type := { get_all : result (list Row) }.

(** An instance of a loaded class; [dao] is [None] when the instance has no
    attribute of that name. *)
Record Instance : Type := { dao : option (result Dao) }.

(** The module [class_loader_util]: [load_class(name)] gives a class, and
    calling the class with no argument gives an instance. *)
Record ClassLoaderUtil : Type := {
  load_class : string → result (result Instance);
}.

(** What the name [class_loader_util] would denote if the module bound it. *)
Variable class_loader_util : ClassLoaderUtil.

Definition load_all (resource_class_name : string) : py (option (list Row)) :=
  let! loader := load_global "class_loader_util" (λ _, class_loader_util) in
  let! cls := lift (load_class loader resource_class_name) in
  let! resource := lift cls in
  match dao resource with
  | Some dao_method =>
      let! d := lift dao_method in
      let! rows := lift (get_all d) in
      ret (Some rows)
  | None =>
      let! _ := load_global "LOGGER" (λ _, tt) in
      let! _ := warn ("No dao class mapped to " ++ resource_class_name) in
      ret None
  end.

(** *** The same functions on arguments of any type

    The functions above take their arguments at the types of the docstrings.
    A caller can pass any value: [create_resource_value], [pluralize_value]
    and [type_from_name_value] are the same bodies with [resource_type] and
    [resource_name] ranging over [pyvalue]. *)

(** The look-up shared by [key in d], [d[key]] and [d.get(key)]: the key is
    hashed first, and the keys of [_RESOURCE_TYPE_MAP] are strings, so only a
    string can be equal to one of them. *)
Definition find_key (d : gmap string metadata) (key : pyvalue)
    : option metadata :=
  match key with
  | PyStr s => d !! s
  | _ => None
  end.

Definition dict_find (d : gmap string metadata) (key : pyvalue)
    : py (option metadata) :=
  if hashable key then ret (find_key d key)
  else raise (TypeError "unhashable type").

Definition create_resource_value (resource_id : string) (resource_type : pyvalue)
    (kwargs : gmap string Value) : py (option Resource) :=
  let! d := load_global "_RESOURCE_TYPE_MAP" registry in
  let! found := dict_find d resource_type in
  if bool_decide (found = None) then ret None else
  let! d := load_global "_RESOURCE_TYPE_MAP" registry in
  let! found := dict_find d resource_type in
  match found with
  | None => raise (KeyError resource_type)
  | Some resource_type =>
      if negb (can_create_resource resource_type) then ret None else
      ret (Some (class resource_type resource_id kwargs))
  end.

Definition pluralize_value (resource_type : pyvalue) : py (option string) :=
  let! d := load_global "_RESOURCE_TYPE_MAP" registry in
  let! found := dict_find d resource_type in
  if bool_decide (found = None) then ret None else
  let! d := load_global "_RESOURCE_TYPE_MAP" registry in
  let! found := dict_find d resource_type in
  match found with
  | Some entry => ret (Some (plural entry))
  | None => raise (AttributeError "get")
  end.

(** The [for] loop of [type_from_name]: [resource_name.startswith] is looked
    up in every iteration, and only a string has that attribute. *)
Fixpoint first_match_value (resource_name : pyvalue)
    (items : list (string * metadata)) : result (option string) :=
  match items with
  | [] => Return None
  | (resource_type, metadata) :: items' =>
      match resource_name with
      | PyStr name =>
          if startswith name (lower (plural metadata))
          then Return (Some resource_type)
          else first_match_value resource_name items'
      | _ => Raise (AttributeError "startswith")
      end
  end.

Definition type_from_name_value (resource_name : pyvalue) : py (option string) :=
  if negb (truthy resource_name) then ret None else
  let! d := load_global "_RESOURCE_TYPE_MAP" registry in
  lift (first_match_value resource_name (iteritems d)).

(** ** Properties *)

(** *** Strings and names *)

Lemma startswith_app (prefix s : string) : startswith (prefix ++ s) prefix = true.
Proof.
  induction prefix as [|c prefix IH]; [reflexivity|].
  simpl. by rewrite Ascii.eqb_refl.
Qed.

Lemma append_empty_r (s : string) : s ++ "" = s.
Proof.
  induction s as [|c s IH]; [done|].
  change (String c (s ++ "") = String c s). by rewrite IH.
Qed.

Lemma class_loader_util_unbound : "class_loader_util" ∉ module_globals.
Proof. compute_done. Qed.

(** *** The state monad *)

Lemma load_global_RESOURCE_TYPE_MAP {A} (f : module_state → A) σ :
  load_global "_RESOURCE_TYPE_MAP" f σ = (σ, Return (f σ)).
Proof. reflexivity. Qed.

Lemma load_global_unbound {A} (f : module_state → A) name σ :
  name ∉ module_globals →
  load_global name f σ = (σ, Raise (NameError name)).
Proof.
  intros Hname. unfold load_global.
  by rewrite bool_decide_eq_false_2.
Qed.

(** *** The three registry operations as plain look-ups *)

Lemma create_resource_eq resource_id resource_type kwargs σ :
  create_resource resource_id resource_type kwargs σ =
  (σ, Return (match registry σ !! resource_type with
              | Some entry =>
                  if can_create_resource entry
                  then Some (class entry resource_id kwargs) else None
              | None => None
              end)).
Proof.
  unfold create_resource, bind.
  rewrite load_global_RESOURCE_TYPE_MAP.
  destruct (registry σ !! resource_type) as [entry|] eqn:Hentry.
  - rewrite bool_decide_eq_false_2 by done.
    rewrite load_global_RESOURCE_TYPE_MAP.
    unfold getitem. rewrite Hentry. unfold ret.
    by destruct (can_create_resource entry).
  - by rewrite bool_decide_eq_true_2.
Qed.

Lemma pluralize_eq resource_type σ :
  pluralize resource_type σ =
  (σ, Return (plural <$> registry σ !! resource_type)).
Proof.
  unfold pluralize, bind.
  rewrite load_global_RESOURCE_TYPE_MAP.
  destruct (registry σ !! resource_type) as [entry|] eqn:Hentry.
  - rewrite bool_decide_eq_false_2 by done.
    rewrite load_global_RESOURCE_TYPE_MAP.
    by rewrite Hentry.
  - by rewrite bool_decide_eq_true_2.
Qed.

Lemma type_from_name_eq c name σ :
  type_from_name (Some (String c name)) σ =
  (σ, Return (first_match (String c name) (iteritems (registry σ)))).
Proof. reflexivity. Qed.

(** *** The loop of [type_from_name] *)

Lemma first_match_None name items :
  first_match name items = None ↔
  ∀ t e, (t, e) ∈ items → startswith name (lower (plural e)) = false.
Proof.
  induction items as [|[t0 e0] items IH]; simpl.
  - split; [|done]. intros _ t e Hin. by apply elem_of_nil in Hin.
  - destruct (startswith name (lower (plural e0))) eqn:Hhead.
    + split; [done|]. intros Hall.
      specialize (Hall t0 e0 (list_elem_of_here _ _)). congruence.
    + rewrite IH. split.
      * intros Hall t e [Heq|Hin]%elem_of_cons; [|by eapply Hall].
        by simplify_eq.
      * intros Hall t e Hin. eapply Hall. by right.
Qed.

Lemma first_match_Some name items t :
  first_match name items = Some t ↔
  ∃ i e, items !! i = Some (t, e) ∧
         startswith name (lower (plural e)) = true ∧
         ∀ j t' e', j < i → items !! j = Some (t', e') →
                    startswith name (lower (plural e')) = false.
Proof.
  induction items as [|[t0 e0] items IH]; simpl.
  - split; [done|]. by intros (i & e & Hi & _).
  - destruct (startswith name (lower (plural e0))) eqn:Hhead.
    + split.
      * intros [= <-]. exists 0, e0. split_and!; [done..|]. intros; lia.
      * intros (i & e & Hi & He & Hbefore).
        destruct i as [|i]; [by simplify_eq/=|].
        specialize (Hbefore 0 t0 e0 ltac:(lia) eq_refl). congruence.
    + rewrite IH. split.
      * intros (i & e & Hi & He & Hbefore).
        exists (S i), e. split_and!; [done..|].
        intros [|j] t' e' Hj Hlook; simplify_eq/=; [done|].
        eapply Hbefore; [|done]. lia.
      * intros (i & e & Hi & He & Hbefore).
        destruct i as [|i]; [simplify_eq/=; congruence|].
        exists i, e. split_and!; [done..|].
        intros j t' e' Hj Hlook.
        apply (Hbefore (S j) t' e'); [lia|done].
Qed.

(** When every matching item has the same key, the order of the items
    does not matter. *)
Lemma first_match_unique name items t e :
  (t, e) ∈ items →
  startswith name (lower (plural e)) = true →
  (∀ t' e', (t', e') ∈ items →
            startswith name (lower (plural e')) = true → t' = t) →
  first_match name items = Some t.
Proof.
  intros Hin He Huniq.
  destruct (first_match name items) as [t'|] eqn:Hfirst.
  - apply first_match_Some in Hfirst as (i & e' & Hi & He' & _).
    f_equal. eapply Huniq; [|done]. by eapply list_elem_of_lookup_2.
  - rewrite first_match_None in Hfirst.
    specialize (Hfirst t e Hin). congruence.
Qed.

(** *** The contents of the registry *)

(** The four constants of [resource.ResourceType] are different strings. *)
Hypothesis keys_distinct :
  NoDup [ORGANIZATION; FOLDER; PROJECT; BACKEND_SERVICE].

(** [iteritems] yields the items of the dictionary, each one once. *)
Hypothesis iteritems_perm : ∀ d, iteritems d ≡ₚ map_to_list d.

Lemma keys_pairwise :
  ORGANIZATION ≠ FOLDER ∧ ORGANIZATION ≠ PROJECT ∧
  ORGANIZATION ≠ BACKEND_SERVICE ∧ FOLDER ≠ PROJECT ∧
  FOLDER ≠ BACKEND_SERVICE ∧ PROJECT ≠ BACKEND_SERVICE.
Proof using keys_distinct.
  clear -keys_distinct.
  pose proof keys_distinct as Hkeys.
  apply NoDup_cons in Hkeys as [Ho Hkeys].
  apply NoDup_cons in Hkeys as [Hf Hkeys].
  apply NoDup_cons in Hkeys as [Hp _].
  set_solver.
Qed.

Lemma registry_lookup_Some t e :
  _RESOURCE_TYPE_MAP !! t = Some e ↔
    (t = ORGANIZATION ∧ e = Metadata Organization "Organizations" true)
  ∨ (t = FOLDER ∧ e = Metadata Folder "Folders" true)
  ∨ (t = PROJECT ∧ e = Metadata Project "Projects" true)
  ∨ (t = BACKEND_SERVICE ∧ e = Metadata BackendService "Backend Services" false).
Proof using keys_distinct.
  unfold _RESOURCE_TYPE_MAP.
  rewrite !lookup_insert_Some, lookup_empty.
  pose proof keys_pairwise as (? & ? & ? & ? & ? & ?).
  intuition (subst; congruence).
Qed.

Lemma lookup_ORGANIZATION :
  _RESOURCE_TYPE_MAP !! ORGANIZATION =
  Some (Metadata Organization "Organizations" true).
Proof using keys_distinct. apply registry_lookup_Some. by left. Qed.

Lemma lookup_FOLDER :
  _RESOURCE_TYPE_MAP !! FOLDER = Some (Metadata Folder "Folders" true).
Proof using keys_distinct. apply registry_lookup_Some. by right; left. Qed.

Lemma lookup_PROJECT :
  _RESOURCE_TYPE_MAP !! PROJECT = Some (Metadata Project "Projects" true).
Proof using keys_distinct.
  apply registry_lookup_Some. by right; right; left.
Qed.

Lemma lookup_BACKEND_SERVICE :
  _RESOURCE_TYPE_MAP !! BACKEND_SERVICE =
  Some (Metadata BackendService "Backend Services" false).
Proof using Type. apply lookup_insert_eq. Qed.

Lemma registry_lookup_None t :
  _RESOURCE_TYPE_MAP !! t = None ↔
  t ≠ ORGANIZATION ∧ t ≠ FOLDER ∧ t ≠ PROJECT ∧ t ≠ BACKEND_SERVICE.
Proof using Type.
  unfold _RESOURCE_TYPE_MAP.
  rewrite !lookup_insert_None, lookup_empty. intuition congruence.
Qed.

Lemma iteritems_registry t e :
  (t, e) ∈ iteritems _RESOURCE_TYPE_MAP ↔ _RESOURCE_TYPE_MAP !! t = Some e.
Proof using iteritems_perm. by rewrite iteritems_perm, elem_of_map_to_list. Qed.

Lemma eval_create_resource resource_id resource_type kwargs :
  eval (create_resource resource_id resource_type kwargs) =
  Return (match _RESOURCE_TYPE_MAP !! resource_type with
          | Some entry =>
              if can_create_resource entry
              then Some (class entry resource_id kwargs) else None
          | None => None
          end).
Proof using Type. unfold eval. by rewrite create_resource_eq. Qed.

Lemma eval_pluralize resource_type :
  eval (pluralize resource_type) =
  Return (plural <$> _RESOURCE_TYPE_MAP !! resource_type).
Proof using Type. unfold eval. by rewrite pluralize_eq. Qed.

(** *** [pluralize] *)

(** C6: [pluralize] returns the configured display string of each registered
    type, in the mixed case of the table: "Organizations", "Folders",
    "Projects" and "Backend Services". *)
Theorem pluralize_fixtures :
  eval (pluralize ORGANIZATION) = Return (Some "Organizations") ∧
  eval (pluralize FOLDER) = Return (Some "Folders") ∧
  eval (pluralize PROJECT) = Return (Some "Projects") ∧
  eval (pluralize BACKEND_SERVICE) = Return (Some "Backend Services").
Proof using keys_distinct.
  rewrite !eval_pluralize.
  by rewrite lookup_ORGANIZATION, lookup_FOLDER, lookup_PROJECT,
    lookup_BACKEND_SERVICE.
Qed.

(** *** Types that are not registered *)

(** For a string that is not a key of the registry, [create_resource] and
    [pluralize] both return [None]; neither raises. *)
Lemma unregistered_type_is_absent (resource_type : string) :
  resource_type ∉ dom _RESOURCE_TYPE_MAP →
  (∀ resource_id kwargs,
     eval (create_resource resource_id resource_type kwargs) = Return None) ∧
  eval (pluralize resource_type) = Return None.
Proof using Type.
  intros Hkey%not_elem_of_dom. split.
  - intros resource_id kwargs. by rewrite eval_create_resource, Hkey.
  - by rewrite eval_pluralize, Hkey.
Qed.

(** *** [create_resource] *)

(** C2: a registered type whose entry has [can_create_resource] false is
    [BACKEND_SERVICE]; for it [create_resource] returns [None] for every
    resource id and all keyword arguments, and the call has the same outcome
    and leaves the same state as a call for a type that is not registered. *)
Theorem not_creatable_is_absent (resource_type : string) (entry : metadata) :
  _RESOURCE_TYPE_MAP !! resource_type = Some entry →
  can_create_resource entry = false →
  resource_type = BACKEND_SERVICE ∧
  ∀ resource_id kwargs,
    eval (create_resource resource_id resource_type kwargs) = Return None ∧
    ∀ unknown,
      unknown ∉ dom _RESOURCE_TYPE_MAP →
      create_resource resource_id unknown kwargs initial_state =
      create_resource resource_id resource_type kwargs initial_state.
Proof using keys_distinct.
  intros Hentry Hflag. split.
  - apply registry_lookup_Some in Hentry
      as [[? ->]|[[? ->]|[[? ->]|[? ->]]]]; done.
  - intros resource_id kwargs. split.
    + by rewrite eval_create_resource, Hentry, Hflag.
    + intros unknown Hunknown%not_elem_of_dom.
      rewrite !create_resource_eq. simpl.
      by rewrite Hunknown, Hentry, Hflag.
Qed.

(** *** [type_from_name] *)

Lemma eval_type_from_name name :
  name ≠ "" →
  eval (type_from_name (Some name)) =
  Return (first_match name (iteritems _RESOURCE_TYPE_MAP)).
Proof using Type. by destruct name. Qed.

(** No lowercased label of the registry is a prefix of another one, so a
    name that starts with one of them resolves to its key in every
    iteration order. *)
Lemma label_prefix_resolves t e s :
  _RESOURCE_TYPE_MAP !! t = Some e →
  eval (type_from_name (Some (lower (plural e) ++ s))) = Return (Some t).
Proof using keys_distinct iteritems_perm.
  intros Hentry. rewrite eval_type_from_name.
  - f_equal. apply (first_match_unique _ _ t e).
    + by apply iteritems_registry.
    + apply startswith_app.
    + intros t' e' Hin%iteritems_registry Hmatch.
      apply registry_lookup_Some in Hentry
        as [[-> ->]|[[-> ->]|[[-> ->]|[-> ->]]]];
      apply registry_lookup_Some in Hin
        as [[-> ->]|[[-> ->]|[[-> ->]|[-> ->]]]];
      try reflexivity; by vm_compute in Hmatch.
  - apply registry_lookup_Some in Hentry
      as [[_ ->]|[[_ ->]|[[_ ->]|[_ ->]]]]; done.
Qed.

Lemma eval_type_from_name_None name :
  name ≠ "" →
  eval (type_from_name (Some name)) = Return None ↔
  ∀ t e, _RESOURCE_TYPE_MAP !! t = Some e →
         startswith name (lower (plural e)) = false.
Proof using iteritems_perm.
  intros Hname. rewrite eval_type_from_name by done. split.
  - intros [= Hnone] t e Hentry.
    rewrite first_match_None in Hnone.
    by apply (Hnone t), iteritems_registry.
  - intros Hall. f_equal. apply first_match_None.
    intros t e Hin%iteritems_registry. by eapply Hall.
Qed.

(** C1: for a non-empty name, [type_from_name] returns the key of the first
    item, in the order of [iteritems], whose lowercased plural label is a
    prefix of the name as it was given, and [None] when no label of the
    registry is such a prefix. "organizations/123", "projects/my-proj" and
    "folders/456" resolve to [ORGANIZATION], [PROJECT] and [FOLDER],
    "unknown/x" to [None]; the name is not lowercased, so
    "Organizations/123" resolves to [None] as well. *)
Theorem type_from_name_first_match :
  (∀ name, name ≠ "" →
     (∀ t, eval (type_from_name (Some name)) = Return (Some t) ↔
           ∃ i e, iteritems _RESOURCE_TYPE_MAP !! i = Some (t, e) ∧
                  startswith name (lower (plural e)) = true ∧
                  ∀ j t' e', j < i →
                    iteritems _RESOURCE_TYPE_MAP !! j = Some (t', e') →
                    startswith name (lower (plural e')) = false) ∧
     (eval (type_from_name (Some name)) = Return None ↔
      ∀ t e, _RESOURCE_TYPE_MAP !! t = Some e →
             startswith name (lower (plural e)) = false) ∧
     (∃ found, eval (type_from_name (Some name)) = Return found)) ∧
  eval (type_from_name (Some "organizations/123")) = Return (Some ORGANIZATION) ∧
  eval (type_from_name (Some "projects/my-proj")) = Return (Some PROJECT) ∧
  eval (type_from_name (Some "folders/456")) = Return (Some FOLDER) ∧
  eval (type_from_name (Some "unknown/x")) = Return None ∧
  eval (type_from_name (Some "Organizations/123")) = Return None.
Proof using keys_distinct iteritems_perm.
  split_and!.
  - intros name Hname. split_and!.
    + intros t. rewrite eval_type_from_name by done.
      rewrite <-first_match_Some. split; [by intros [= ->]|by intros ->].
    + by apply eval_type_from_name_None.
    + rewrite eval_type_from_name by done. eauto.
  - apply (label_prefix_resolves ORGANIZATION _ "/123" lookup_ORGANIZATION).
  - apply (label_prefix_resolves PROJECT _ "/my-proj" lookup_PROJECT).
  - apply (label_prefix_resolves FOLDER _ "/456" lookup_FOLDER).
  - apply eval_type_from_name_None; [done|].
    intros t e [[_ ->]|[[_ ->]|[[_ ->]|[_ ->]]]]%registry_lookup_Some;
      reflexivity.
  - apply eval_type_from_name_None; [done|].
    intros t e [[_ ->]|[[_ ->]|[[_ ->]|[_ ->]]]]%registry_lookup_Some;
      reflexivity.
Qed.

(** C4: for a registered type, the lowercased plural label followed by "/"
    and any resource id is a name that [type_from_name] resolves to that
    type. *)
Theorem type_from_name_round_trip (resource_type label resource_id : string) :
  eval (pluralize resource_type) = Return (Some label) →
  eval (type_from_name (Some (lower label ++ "/" ++ resource_id))) =
  Return (Some resource_type).
Proof using keys_distinct iteritems_perm.
  rewrite eval_pluralize. intros [= Hlabel].
  destruct (_RESOURCE_TYPE_MAP !! resource_type) as [e|] eqn:Hentry;
    simplify_eq/=.
  by apply label_prefix_resolves.
Qed.

(** C10: [type_from_name] tests the prefix only; it looks for no "/" and
    for no resource id. For a registered type, the lowercased plural label
    followed by any suffix, the empty one included, resolves to a type:
    "organizations" and "organizationsXYZ" both give [ORGANIZATION]. *)
Theorem type_from_name_ignores_separator (resource_type label suffix : string) :
  eval (pluralize resource_type) = Return (Some label) →
  (∃ found, eval (type_from_name (Some (lower label ++ suffix))) =
            Return (Some found)) ∧
  eval (type_from_name (Some (lower label))) = Return (Some resource_type) ∧
  eval (type_from_name (Some "organizations")) = Return (Some ORGANIZATION) ∧
  eval (type_from_name (Some "organizationsXYZ")) = Return (Some ORGANIZATION).
Proof using keys_distinct iteritems_perm.
  rewrite eval_pluralize. intros [= Hlabel].
  destruct (_RESOURCE_TYPE_MAP !! resource_type) as [e|] eqn:Hentry;
    simplify_eq/=.
  split_and!.
  - exists resource_type. by apply label_prefix_resolves.
  - pose proof (label_prefix_resolves resource_type e "" Hentry) as Hempty.
    by rewrite append_empty_r in Hempty.
  - apply (label_prefix_resolves ORGANIZATION _ "" lookup_ORGANIZATION).
  - apply (label_prefix_resolves ORGANIZATION _ "XYZ" lookup_ORGANIZATION).
Qed.

(** C7: for [None] and for the empty string [type_from_name] returns [None]
    at once. The outcome is the same in every state and for every
    [iteritems]: the registry is not consulted, not even one whose items
    would match the empty name. *)
Theorem type_from_name_empty_or_absent (σ : module_state) :
  type_from_name None σ = (σ, Return None) ∧
  type_from_name (Some "") σ = (σ, Return None) ∧
  ∀ t e, startswith "" (lower (plural e)) = true →
         first_match "" [(t, e)] = Some t ∧
         type_from_name (Some "") (ModuleState {[t := e]} []) =
         (ModuleState {[t := e]} [], Return None).
Proof using Type.
  split_and!; [done..|]. intros t e Hmatch. simpl. by rewrite Hmatch.
Qed.

(** *** The registry is only read *)

(** C9: [create_resource], [pluralize] and [type_from_name] leave the state
    as they found it, so the registry keeps every entry unchanged, and a
    second call with the same arguments has the outcome of the first. *)
Theorem registry_read_only (σ : module_state) :
  (∀ resource_id resource_type kwargs,
     let call := create_resource resource_id resource_type kwargs in
     (call σ).1 = σ ∧ registry (call σ).1 = registry σ ∧
     call (call σ).1 = call σ) ∧
  (∀ resource_type,
     let call := pluralize resource_type in
     (call σ).1 = σ ∧ registry (call σ).1 = registry σ ∧
     call (call σ).1 = call σ) ∧
  (∀ resource_name,
     let call := type_from_name resource_name in
     (call σ).1 = σ ∧ registry (call σ).1 = registry σ ∧
     call (call σ).1 = call σ).
Proof using Type.
  split_and!.
  - intros resource_id resource_type kwargs call. subst call.
    by rewrite !create_resource_eq.
  - intros resource_type call. subst call. by rewrite !pluralize_eq.
  - intros [[|c name]|] call; subst call; by rewrite ?type_from_name_eq.
Qed.

(** *** [load_all] *)

(** C8 (the code departs from the claim): the module never binds the name
    [class_loader_util], so every call of [load_all] raises [NameError]
    before a class is loaded, whatever the loader would do. *)
Theorem load_all_raises_NameError (resource_class_name : string)
    (σ : module_state) :
  load_all resource_class_name σ = (σ, Raise (NameError "class_loader_util")).
Proof using Type.
  unfold load_all, bind.
  rewrite load_global_unbound; [done|].
  apply class_loader_util_unbound.
Qed.

Section Classification.

(** The attribute [type] of an instance of [resource.Resource]. *)
Variable type_of : Resource → string.

(** Each class builds instances of its own resource type. *)
Hypothesis Organization_type :
  ∀ resource_id kwargs, type_of (Organization resource_id kwargs) = ORGANIZATION.
Hypothesis Folder_type :
  ∀ resource_id kwargs, type_of (Folder resource_id kwargs) = FOLDER.
Hypothesis Project_type :
  ∀ resource_id kwargs, type_of (Project resource_id kwargs) = PROJECT.

(** C3: a registered type whose entry has [can_create_resource] true is
    [ORGANIZATION], [FOLDER] or [PROJECT]; for it [create_resource] calls
    the class of the entry with the resource id and the keyword arguments
    as they were given and returns that instance, which is not [None] and
    whose type is the requested one. *)
Theorem creatable_is_constructed (resource_type : string) (entry : metadata) :
  _RESOURCE_TYPE_MAP !! resource_type = Some entry →
  can_create_resource entry = true →
  ((resource_type = ORGANIZATION ∧ class entry = Organization) ∨
   (resource_type = FOLDER ∧ class entry = Folder) ∨
   (resource_type = PROJECT ∧ class entry = Project)) ∧
  ∀ resource_id kwargs,
    eval (create_resource resource_id resource_type kwargs) =
      Return (Some (class entry resource_id kwargs)) ∧
    type_of (class entry resource_id kwargs) = resource_type.
Proof using keys_distinct Organization_type Folder_type Project_type.
  intros Hentry Hflag.
  assert ((resource_type = ORGANIZATION ∧ class entry = Organization) ∨
          (resource_type = FOLDER ∧ class entry = Folder) ∨
          (resource_type = PROJECT ∧ class entry = Project)) as Hcases.
  { apply registry_lookup_Some in Hentry
      as [[? ->]|[[? ->]|[[? ->]|[? ->]]]]; auto. done. }
  split; [done|]. intros resource_id kwargs. split.
  - by rewrite eval_create_resource, Hentry, Hflag.
  - destruct Hcases as [[-> ->]|[[-> ->]|[-> ->]]]; auto.
Qed.

End Classification.

(** ** Further properties of the registry operations *)

(** *** Strings *)

Lemma append_assoc (s1 s2 s3 : string) : (s1 ++ s2) ++ s3 = s1 ++ (s2 ++ s3).
Proof.
  induction s1 as [|c s1 IH]; [done|].
  change (String c ((s1 ++ s2) ++ s3) = String c (s1 ++ (s2 ++ s3))).
  by rewrite IH.
Qed.

Lemma startswith_Some (s prefix : string) :
  startswith s prefix = true ↔ ∃ rest, s = prefix ++ rest.
Proof.
  revert s. induction prefix as [|p prefix IH]; intros s.
  - split; [|done]. intros _. by exists s.
  - destruct s as [|c s]; simpl.
    + split; [done|]. intros [rest Hrest].
      change ("" = String p (prefix ++ rest)) in Hrest. discriminate.
    + destruct (Ascii.eqb_spec c p) as [->|Hne].
      * rewrite IH. split; intros [rest Hrest]; exists rest.
        -- change (String p s = String p (prefix ++ rest)). by rewrite Hrest.
        -- change (String p s = String p (prefix ++ rest)) in Hrest.
           by injection Hrest.
      * split; [done|]. intros [rest Hrest].
        change (String c s = String p (prefix ++ rest)) in Hrest. congruence.
Qed.

Lemma lower_char_idemp (c : ascii) : lower_char (lower_char c) = lower_char c.
Proof. by destruct c as [[] [] [] [] [] [] [] []]. Qed.

Lemma lower_idemp (s : string) : lower (lower s) = lower s.
Proof.
  induction s as [|c s IH]; simpl; [done|].
  by rewrite lower_char_idemp, IH.
Qed.

Lemma lower_app (s1 s2 : string) : lower (s1 ++ s2) = lower s1 ++ lower s2.
Proof.
  induction s1 as [|c s1 IH]; [done|].
  change (String (lower_char c) (lower (s1 ++ s2)) =
          String (lower_char c) (lower s1 ++ lower s2)).
  by rewrite IH.
Qed.

(** *** The loop over any dictionary *)

(** A key found by the loop is a key of the dictionary, and the name starts
    with the lowercased label of its entry. *)
Lemma first_match_lookup name (d : gmap string metadata) t :
  first_match name (iteritems d) = Some t →
  ∃ e rest, d !! t = Some e ∧ name = lower (plural e) ++ rest.
Proof using iteritems_perm.
  intros (i & e & Hi & He & _)%first_match_Some.
  apply startswith_Some in He as [rest Hrest].
  exists e, rest. split; [|done].
  apply elem_of_map_to_list. rewrite <-iteritems_perm.
  by eapply list_elem_of_lookup_2.
Qed.

(** *** The loop over the registry of the module *)

Lemma first_match_label t e s :
  _RESOURCE_TYPE_MAP !! t = Some e →
  first_match (lower (plural e) ++ s) (iteritems _RESOURCE_TYPE_MAP) = Some t.
Proof using keys_distinct iteritems_perm.
  intros Hentry. apply (first_match_unique _ _ t e).
  - by apply iteritems_registry.
  - apply startswith_app.
  - intros t' e' Hin%iteritems_registry Hmatch.
    apply registry_lookup_Some in Hentry
      as [[-> ->]|[[-> ->]|[[-> ->]|[-> ->]]]];
    apply registry_lookup_Some in Hin
      as [[-> ->]|[[-> ->]|[[-> ->]|[-> ->]]]];
    try reflexivity; by vm_compute in Hmatch.
Qed.

Lemma first_match_registry name :
  first_match name (iteritems _RESOURCE_TYPE_MAP) =
  if startswith name "organizations" then Some ORGANIZATION
  else if startswith name "folders" then Some FOLDER
  else if startswith name "projects" then Some PROJECT
  else if startswith name "backend services" then Some BACKEND_SERVICE
  else None.
Proof using keys_distinct iteritems_perm.
  destruct (startswith name "organizations") eqn:Ho.
  { apply startswith_Some in Ho as [rest ->].
    apply (first_match_label ORGANIZATION _ rest lookup_ORGANIZATION). }
  destruct (startswith name "folders") eqn:Hf.
  { apply startswith_Some in Hf as [rest ->].
    apply (first_match_label FOLDER _ rest lookup_FOLDER). }
  destruct (startswith name "projects") eqn:Hp.
  { apply startswith_Some in Hp as [rest ->].
    apply (first_match_label PROJECT _ rest lookup_PROJECT). }
  destruct (startswith name "backend services") eqn:Hb.
  { apply startswith_Some in Hb as [rest ->].
    apply (first_match_label BACKEND_SERVICE _ rest lookup_BACKEND_SERVICE). }
  apply first_match_None.
  intros t e Hin%iteritems_registry.
  apply registry_lookup_Some in Hin
    as [[_ ->]|[[_ ->]|[[_ ->]|[_ ->]]]]; assumption.
Qed.

Lemma eval_type_from_name_Some name t :
  eval (type_from_name (Some name)) = Return (Some t) →
  ∃ e rest, _RESOURCE_TYPE_MAP !! t = Some e ∧ name = lower (plural e) ++ rest.
Proof using iteritems_perm.
  destruct name as [|c name]; [done|].
  rewrite eval_type_from_name by done. intros [= Hfirst].
  by apply first_match_lookup.
Qed.

(** *** Arguments of any type *)

Lemma dict_find_hashable d key σ :
  hashable key = true → dict_find d key σ = (σ, Return (find_key d key)).
Proof using Type. intros Hkey. unfold dict_find. by rewrite Hkey. Qed.

Lemma dict_find_unhashable d key σ :
  hashable key = false →
  dict_find d key σ = (σ, Raise (TypeError "unhashable type")).
Proof using Type. intros Hkey. unfold dict_find. by rewrite Hkey. Qed.

Lemma create_resource_value_hashable resource_id resource_type kwargs σ :
  hashable resource_type = true →
  create_resource_value resource_id resource_type kwargs σ =
  (σ, Return (match find_key (registry σ) resource_type with
              | Some entry =>
                  if can_create_resource entry
                  then Some (class entry resource_id kwargs) else None
              | None => None
              end)).
Proof using Type.
  intros Hkey. unfold create_resource_value, bind.
  rewrite load_global_RESOURCE_TYPE_MAP, dict_find_hashable by done.
  destruct (find_key (registry σ) resource_type) as [entry|] eqn:Hentry.
  - rewrite bool_decide_eq_false_2 by done.
    rewrite load_global_RESOURCE_TYPE_MAP, dict_find_hashable by done.
    rewrite Hentry. unfold ret. by destruct (can_create_resource entry).
  - by rewrite bool_decide_eq_true_2.
Qed.

Lemma create_resource_value_unhashable resource_id resource_type kwargs σ :
  hashable resource_type = false →
  create_resource_value resource_id resource_type kwargs σ =
  (σ, Raise (TypeError "unhashable type")).
Proof using Type.
  intros Hkey. unfold create_resource_value, bind.
  by rewrite load_global_RESOURCE_TYPE_MAP, dict_find_unhashable.
Qed.

Lemma pluralize_value_hashable resource_type σ :
  hashable resource_type = true →
  pluralize_value resource_type σ =
  (σ, Return (plural <$> find_key (registry σ) resource_type)).
Proof using Type.
  intros Hkey. unfold pluralize_value, bind.
  rewrite load_global_RESOURCE_TYPE_MAP, dict_find_hashable by done.
  destruct (find_key (registry σ) resource_type) as [entry|] eqn:Hentry.
  - rewrite bool_decide_eq_false_2 by done.
    rewrite load_global_RESOURCE_TYPE_MAP, dict_find_hashable by done.
    by rewrite Hentry.
  - by rewrite bool_decide_eq_true_2.
Qed.

Lemma pluralize_value_unhashable resource_type σ :
  hashable resource_type = false →
  pluralize_value resource_type σ = (σ, Raise (TypeError "unhashable type")).
Proof using Type.
  intros Hkey. unfold pluralize_value, bind.
  by rewrite load_global_RESOURCE_TYPE_MAP, dict_find_unhashable.
Qed.

(** On a string the functions are the ones above. *)
Lemma create_resource_value_str resource_id resource_type kwargs σ :
  create_resource_value resource_id (PyStr resource_type) kwargs σ =
  create_resource resource_id resource_type kwargs σ.
Proof using Type.
  by rewrite create_resource_value_hashable, create_resource_eq.
Qed.

Lemma pluralize_value_str resource_type σ :
  pluralize_value (PyStr resource_type) σ = pluralize resource_type σ.
Proof using Type. by rewrite pluralize_value_hashable, pluralize_eq. Qed.

Lemma first_match_value_str name items :
  first_match_value (PyStr name) items = Return (first_match name items).
Proof using Type.
  induction items as [|[t e] items IH]; simpl; [done|].
  by destruct (startswith name (lower (plural e))).
Qed.

Lemma type_from_name_value_str name σ :
  type_from_name_value (PyStr name) σ = type_from_name (Some name) σ.
Proof using Type.
  destruct name as [|c name]; [done|].
  rewrite type_from_name_eq. unfold type_from_name_value.
  cbn [truthy String.eqb negb]. unfold bind, lift.
  by rewrite load_global_RESOURCE_TYPE_MAP, first_match_value_str.
Qed.

Lemma type_from_name_value_None σ :
  type_from_name_value PyNone σ = type_from_name None σ.
Proof using Type. reflexivity. Qed.

Lemma iteritems_nonempty (d : gmap string metadata) :
  d ≠ ∅ → ∃ item items, iteritems d = item :: items.
Proof using iteritems_perm.
  intros Hd. destruct (iteritems d) as [|item items] eqn:Hitems; [|eauto].
  destruct Hd. apply map_to_list_empty_iff, Permutation_nil_r.
  by rewrite <-iteritems_perm, Hitems.
Qed.


(** *** When an operation raises *)

(** X1: with arguments of any type, in every state, [create_resource] and
    [pluralize] return a value when [resource_type] can be hashed and raise
    [TypeError] when it cannot; the subscript [d[key]] and the chained [.get]
    raise nothing. [type_from_name] returns [None] for every falsy name and a
    value for every string, and raises [AttributeError] for a truthy name
    that is not a string as soon as the registry has an item. No call changes
    the state. *)
Theorem registry_operations_faults (σ : module_state) :
  (∀ resource_id resource_type kwargs,
     if hashable resource_type
     then ∃ found, create_resource_value resource_id resource_type kwargs σ =
                   (σ, Return found)
     else create_resource_value resource_id resource_type kwargs σ =
          (σ, Raise (TypeError "unhashable type"))) ∧
  (∀ resource_type,
     if hashable resource_type
     then ∃ label, pluralize_value resource_type σ = (σ, Return label)
     else pluralize_value resource_type σ =
          (σ, Raise (TypeError "unhashable type"))) ∧
  (∀ resource_name,
     truthy resource_name = false →
     type_from_name_value resource_name σ = (σ, Return None)) ∧
  (∀ name, ∃ found, type_from_name_value (PyStr name) σ = (σ, Return found)) ∧
  (∀ resource_name,
     truthy resource_name = true →
     (∀ name, resource_name ≠ PyStr name) →
     registry σ ≠ ∅ →
     type_from_name_value resource_name σ =
     (σ, Raise (AttributeError "startswith"))).
Proof using iteritems_perm.
  split_and!.
  - intros resource_id resource_type kwargs.
    destruct (hashable resource_type) eqn:Hhash.
    + rewrite create_resource_value_hashable by done. eauto.
    + by apply create_resource_value_unhashable.
  - intros resource_type. destruct (hashable resource_type) eqn:Hhash.
    + rewrite pluralize_value_hashable by done. eauto.
    + by apply pluralize_value_unhashable.
  - intros resource_name Hfalsy. unfold type_from_name_value.
    by rewrite Hfalsy.
  - intros name. rewrite type_from_name_value_str.
    destruct name as [|c name]; [by exists None|].
    rewrite type_from_name_eq. eauto.
  - intros resource_name Htruthy Hstr Hitems.
    unfold type_from_name_value. rewrite Htruthy. cbn [negb].
    unfold bind, lift. rewrite load_global_RESOURCE_TYPE_MAP.
    apply iteritems_nonempty in Hitems as ([t e] & items & ->).
    destruct resource_name as [| | |name| |]; try done.
    by destruct (Hstr name).
Qed.

(** *** What a result tells the caller *)

(** X2: in every state, a type returned by [type_from_name] is a key of the
    registry, the name is the lowercased plural label of that key followed by
    some rest, and [pluralize] of the returned type gives that label. *)
Theorem type_from_name_sound (resource_name : option string) (t : string)
    (σ σ' : module_state) :
  type_from_name resource_name σ = (σ', Return (Some t)) →
  σ' = σ ∧
  ∃ name e rest,
    resource_name = Some name ∧
    registry σ !! t = Some e ∧
    name = lower (plural e) ++ rest ∧
    pluralize t σ = (σ, Return (Some (plural e))).
Proof using iteritems_perm.
  destruct resource_name as [[|c name]|]; [done| |done].
  rewrite type_from_name_eq. intros [= <- Hfirst]. split; [done|].
  apply first_match_lookup in Hfirst as (e & rest & Hentry & Hname).
  exists (String c name), e, rest. split_and!; [done..|].
  by rewrite pluralize_eq, Hentry.
Qed.

(** X7: in every state, an instance returned by [create_resource] is the
    class of a registered entry with [can_create_resource] true, applied to
    the resource id and the keyword arguments of the call; [pluralize] of the
    same type returns the label of that entry. *)
Theorem create_resource_sound (resource_id resource_type : string)
    (kwargs : gmap string Value) (instance : Resource) (σ σ' : module_state) :
  create_resource resource_id resource_type kwargs σ =
    (σ', Return (Some instance)) →
  σ' = σ ∧
  ∃ e, registry σ !! resource_type = Some e ∧
       can_create_resource e = true ∧
       instance = class e resource_id kwargs ∧
       pluralize resource_type σ = (σ, Return (Some (plural e))).
Proof using Type.
  rewrite create_resource_eq. intros [= <- Hfound]. split; [done|].
  destruct (registry σ !! resource_type) as [e|] eqn:Hentry; [|done].
  destruct (can_create_resource e) eqn:Hflag; [|done].
  exists e. split_and!; [done|done|congruence|].
  by rewrite pluralize_eq, Hentry.
Qed.

(** *** [type_from_name] on the registry of the module *)

(** X3: on the registry of the module, [type_from_name] is decided by four
    prefix tests on the name, whatever the order of [iteritems]:
    "organizations", "folders", "projects" and "backend services" give
    [ORGANIZATION], [FOLDER], [PROJECT] and [BACKEND_SERVICE], and every
    other name gives [None]. *)
Theorem type_from_name_table (name : string) :
  eval (type_from_name (Some name)) =
  Return (if startswith name "organizations" then Some ORGANIZATION
          else if startswith name "folders" then Some FOLDER
          else if startswith name "projects" then Some PROJECT
          else if startswith name "backend services" then Some BACKEND_SERVICE
          else None).
Proof using keys_distinct iteritems_perm.
  destruct name as [|c name]; [reflexivity|].
  rewrite eval_type_from_name by done.
  by rewrite first_match_registry.
Qed.

(** X4: a name that resolves to a type still resolves to the same type
    after any text is appended to it. *)
Theorem type_from_name_suffix_stable (name suffix t : string) :
  eval (type_from_name (Some name)) = Return (Some t) →
  eval (type_from_name (Some (name ++ suffix))) = Return (Some t).
Proof using keys_distinct iteritems_perm.
  intros (e & rest & Hentry & ->)%eval_type_from_name_Some.
  rewrite append_assoc. by apply label_prefix_resolves.
Qed.

(** X5: the plural label as [pluralize] returns it, in its mixed case, is
    not a prefix that [type_from_name] accepts: the label of a registered
    type followed by any text resolves to [None]. *)
Theorem display_label_does_not_resolve (resource_type label suffix : string) :
  eval (pluralize resource_type) = Return (Some label) →
  eval (type_from_name (Some (label ++ suffix))) = Return None.
Proof using keys_distinct iteritems_perm.
  rewrite eval_pluralize. intros [= Hlabel].
  destruct (_RESOURCE_TYPE_MAP !! resource_type) as [e|] eqn:Hentry;
    [|done].
  injection Hlabel as <-.
  assert (∀ name, startswith name "organizations" = false →
                  startswith name "folders" = false →
                  startswith name "projects" = false →
                  startswith name "backend services" = false →
                  name ≠ "" →
                  eval (type_from_name (Some name)) = Return None) as Hnone.
  { intros name Ho Hf Hp Hb Hname. rewrite eval_type_from_name by done.
    by rewrite first_match_registry, Ho, Hf, Hp, Hb. }
  apply registry_lookup_Some in Hentry
    as [[_ ->]|[[_ ->]|[[_ ->]|[_ ->]]]]; by apply Hnone.
Qed.

(** X8: lowercasing a name that resolves to a type keeps the type. *)
Theorem type_from_name_lower_stable (name t : string) :
  eval (type_from_name (Some name)) = Return (Some t) →
  eval (type_from_name (Some (lower name))) = Return (Some t).
Proof using keys_distinct iteritems_perm.
  intros (e & rest & Hentry & ->)%eval_type_from_name_Some.
  rewrite lower_app, lower_idemp. by apply label_prefix_resolves.
Qed.

(** *** [pluralize] on the registry of the module *)

(** X6: two registered types with the same plural label are the same type,
    so the label identifies the type. *)
Theorem pluralize_injective (t1 t2 label : string) :
  eval (pluralize t1) = Return (Some label) →
  eval (pluralize t2) = Return (Some label) →
  t1 = t2.
Proof using keys_distinct.
  rewrite !eval_pluralize. intros [= H1] [= H2].
  destruct (_RESOURCE_TYPE_MAP !! t1) as [e1|] eqn:Hentry1; simplify_eq/=.
  destruct (_RESOURCE_TYPE_MAP !! t2) as [e2|] eqn:Hentry2; simplify_eq/=.
  apply registry_lookup_Some in Hentry1
    as [[-> ->]|[[-> ->]|[[-> ->]|[-> ->]]]];
  apply registry_lookup_Some in Hentry2
    as [[-> ->]|[[-> ->]|[[-> ->]|[-> ->]]]];
  done.
Qed.

End ResourceUtil.

(** ** The statements at a concrete instance

    The imported names are instantiated with [Model], and [iteritems] with
    the order of [map_to_list]. *)

Local Abbreviation model_eval :=
  (eval Model.ORGANIZATION Model.FOLDER Model.PROJECT Model.BACKEND_SERVICE
        Model.Organization Model.Folder Model.Project Model.BackendService).

Local Abbreviation model_map :=
  (_RESOURCE_TYPE_MAP
     Model.ORGANIZATION Model.FOLDER Model.PROJECT Model.BACKEND_SERVICE
     Model.Organization Model.Folder Model.Project Model.BackendService).

Lemma model_keys_distinct :
  NoDup [Model.ORGANIZATION; Model.FOLDER; Model.PROJECT; Model.BACKEND_SERVICE].
Proof. compute_done. Defined.

Lemma pluralize_fixtures_witness :
  model_eval (pluralize Model.ORGANIZATION) = Return (Some "Organizations") ∧
  model_eval (pluralize Model.FOLDER) = Return (Some "Folders") ∧
  model_eval (pluralize Model.PROJECT) = Return (Some "Projects") ∧
  model_eval (pluralize Model.BACKEND_SERVICE) = Return (Some "Backend Services").
Proof.
  apply (pluralize_fixtures Model.ORGANIZATION Model.FOLDER Model.PROJECT
           Model.BACKEND_SERVICE Model.Organization Model.Folder Model.Project
           Model.BackendService).
  exact model_keys_distinct.
Defined.

Lemma not_creatable_is_absent_witness :
  model_eval (create_resource "bs-1" Model.BACKEND_SERVICE ∅) = Return None ∧
  create_resource "bs-1" "group" ∅ (ModuleState (model_map) []) =
  create_resource "bs-1" Model.BACKEND_SERVICE ∅ (ModuleState (model_map) []).
Proof.
  destruct (not_creatable_is_absent Model.ORGANIZATION Model.FOLDER
              Model.PROJECT Model.BACKEND_SERVICE Model.Organization
              Model.Folder Model.Project Model.BackendService
              model_keys_distinct Model.BACKEND_SERVICE
              (Metadata Model.BackendService "Backend Services" false)
              eq_refl eq_refl) as [_ Hcall].
  destruct (Hcall "bs-1" ∅) as [Hnone Hsame].
  split; [exact Hnone|]. apply Hsame.
  apply not_elem_of_dom. reflexivity.
Defined.

Lemma creatable_is_constructed_witness :
  model_eval (create_resource "my-proj" Model.PROJECT {["name" := "My project"]}) =
    Return (Some (Model.Project "my-proj" {["name" := "My project"]})) ∧
  Model.type (Model.Project "my-proj" {["name" := "My project"]}) = Model.PROJECT.
Proof.
  destruct (creatable_is_constructed Model.ORGANIZATION Model.FOLDER
              Model.PROJECT Model.BACKEND_SERVICE Model.Organization
              Model.Folder Model.Project Model.BackendService
              model_keys_distinct Model.type
              (λ _ _, eq_refl) (λ _ _, eq_refl) (λ _ _, eq_refl)
              Model.PROJECT (Metadata Model.Project "Projects" true)
              eq_refl eq_refl) as [_ Hcall].
  exact (Hcall "my-proj" {["name" := "My project"]}).
Defined.

Lemma type_from_name_first_match_witness :
  model_eval (type_from_name map_to_list (Some "organizations/123")) =
    Return (Some Model.ORGANIZATION) ∧
  model_eval (type_from_name map_to_list (Some "projects/my-proj")) =
    Return (Some Model.PROJECT) ∧
  model_eval (type_from_name map_to_list (Some "folders/456")) =
    Return (Some Model.FOLDER) ∧
  model_eval (type_from_name map_to_list (Some "unknown/x")) = Return None ∧
  model_eval (type_from_name map_to_list (Some "Organizations/123")) =
    Return None.
Proof.
  apply (type_from_name_first_match Model.ORGANIZATION Model.FOLDER
           Model.PROJECT Model.BACKEND_SERVICE Model.Organization Model.Folder
           Model.Project Model.BackendService map_to_list model_keys_distinct
           (λ d, reflexivity (map_to_list d))).
Defined.

Lemma type_from_name_round_trip_witness :
  model_eval (type_from_name map_to_list (Some "backend services/bs-1")) =
  Return (Some Model.BACKEND_SERVICE).
Proof.
  apply (type_from_name_round_trip Model.ORGANIZATION Model.FOLDER
           Model.PROJECT Model.BACKEND_SERVICE Model.Organization Model.Folder
           Model.Project Model.BackendService map_to_list model_keys_distinct
           (λ d, reflexivity (map_to_list d))
           Model.BACKEND_SERVICE "Backend Services" "bs-1").
  reflexivity.
Defined.

Lemma type_from_name_ignores_separator_witness :
  ∃ found,
    model_eval (type_from_name map_to_list (Some "foldersXYZ")) =
    Return (Some found).
Proof.
  apply (type_from_name_ignores_separator Model.ORGANIZATION Model.FOLDER
           Model.PROJECT Model.BACKEND_SERVICE Model.Organization Model.Folder
           Model.Project Model.BackendService map_to_list model_keys_distinct
           (λ d, reflexivity (map_to_list d))
           Model.FOLDER "Folders" "XYZ").
  reflexivity.
Defined.

Local Abbreviation model_state := (ModuleState (model_map) []).

Lemma type_from_name_sound_witness :
  ∃ name e rest,
    Some "projects/p-1" = Some name ∧
    (model_map) !! Model.PROJECT = Some e ∧
    name = lower (plural e) ++ rest ∧
    pluralize Model.PROJECT (model_state) =
    (model_state, Return (Some (plural e))).
Proof.
  assert (type_from_name map_to_list (Some "projects/p-1") (model_state) =
          (model_state, Return (Some Model.PROJECT))) as Hrun.
  { vm_compute. reflexivity. }
  destruct (type_from_name_sound map_to_list (λ d, reflexivity (map_to_list d))
              (Some "projects/p-1") Model.PROJECT (model_state) (model_state)
              Hrun) as [_ Hsound].
  exact Hsound.
Defined.

Lemma create_resource_sound_witness :
  ∃ e, (model_map) !! Model.PROJECT = Some e ∧
       can_create_resource e = true ∧
       Model.Project "my-proj" ∅ = class e "my-proj" ∅ ∧
       pluralize Model.PROJECT (model_state) =
       (model_state, Return (Some (plural e))).
Proof.
  destruct (create_resource_sound "my-proj" Model.PROJECT ∅
              (Model.Project "my-proj" ∅) (model_state) (model_state)
              eq_refl) as [_ Hsound].
  exact Hsound.
Defined.

Lemma type_from_name_table_witness :
  model_eval (type_from_name map_to_list (Some "folders/456")) =
  Return (Some Model.FOLDER).
Proof.
  exact (type_from_name_table Model.ORGANIZATION Model.FOLDER Model.PROJECT
           Model.BACKEND_SERVICE Model.Organization Model.Folder Model.Project
           Model.BackendService map_to_list model_keys_distinct
           (λ d, reflexivity (map_to_list d)) "folders/456").
Defined.

Lemma type_from_name_suffix_stable_witness :
  model_eval (type_from_name map_to_list (Some ("projects" ++ "/p-1"))) =
  Return (Some Model.PROJECT).
Proof.
  apply (type_from_name_suffix_stable Model.ORGANIZATION Model.FOLDER
           Model.PROJECT Model.BACKEND_SERVICE Model.Organization Model.Folder
           Model.Project Model.BackendService map_to_list model_keys_distinct
           (λ d, reflexivity (map_to_list d)) "projects" "/p-1" Model.PROJECT).
  vm_compute. reflexivity.
Defined.

Lemma display_label_does_not_resolve_witness :
  model_eval (type_from_name map_to_list (Some ("Folders" ++ "/456"))) =
  Return None.
Proof.
  apply (display_label_does_not_resolve Model.ORGANIZATION Model.FOLDER
           Model.PROJECT Model.BACKEND_SERVICE Model.Organization Model.Folder
           Model.Project Model.BackendService map_to_list model_keys_distinct
           (λ d, reflexivity (map_to_list d)) Model.FOLDER "Folders" "/456").
  reflexivity.
Defined.

Lemma type_from_name_lower_stable_witness :
  model_eval (type_from_name map_to_list (Some (lower "folders/ABC"))) =
  Return (Some Model.FOLDER).
Proof.
  apply (type_from_name_lower_stable Model.ORGANIZATION Model.FOLDER
           Model.PROJECT Model.BACKEND_SERVICE Model.Organization Model.Folder
           Model.Project Model.BackendService map_to_list model_keys_distinct
           (λ d, reflexivity (map_to_list d)) "folders/ABC" Model.FOLDER).
  vm_compute. reflexivity.
Defined.

Lemma pluralize_injective_witness : Model.PROJECT = Model.PROJECT.
Proof.
  apply (pluralize_injective Model.ORGANIZATION Model.FOLDER Model.PROJECT
           Model.BACKEND_SERVICE Model.Organization Model.Folder Model.Project
           Model.BackendService model_keys_distinct
           Model.PROJECT Model.PROJECT "Projects").
  - reflexivity.
  - reflexivity.
Defined.



Lemma registry_operations_faults_witness :
  type_from_name_value map_to_list (PyInt 123) (model_state) =
  (model_state, Raise (AttributeError "startswith")).
Proof.
  destruct (registry_operations_faults map_to_list
              (λ d, reflexivity (map_to_list d)) (model_state))
    as (_ & _ & _ & _ & Hraise).
  apply Hraise.
  - reflexivity.
  - intros name Hname. discriminate Hname.
  - intros Hempty.
    apply (f_equal (λ d, d !! Model.PROJECT)) in Hempty. discriminate Hempty.
Defined.
